(** * Prompt-record store and evaluation report of the image generator

    A shallow embedding of [src/main.py]: the SQLite table [prompts], the
    image files on disk, the outside values the program reads
    ([uuid.uuid4], [datetime.now], the diffusion pipeline), and the
    functions [init_db], [save_prompt], [get_prompt_history],
    [generate_report], [delete_prompt_history] and [main], followed by the
    properties of the record lifecycle, of the report and of whole runs of
    the script.  [load_model] only reaches into the diffusion libraries;
    what it yields is the field [pipe] of the environment.

    Conventions of the model.
    - A Python [str] is a [string] whose characters are the code points
      below 256 (ASCII and Latin-1); text with other code points is outside
      the model.  On such text [str.lower] works character by character:
      it moves A-Z and the accented capitals 192-214 and 216-222 up by 32
      and leaves every other character as it is.
    - The table is the list of its rows in rowid order, the order in which
      SQLite scans a table for a [SELECT] without [ORDER BY]; an [INSERT]
      appends.  Every data-changing statement of the program is followed by
      [conn.commit()] with no fallible step in between, so the list is the
      committed content.  [None] stands for a database file in which the
      table was never created, or that has been unlinked.
    - The files are the directory entries beside the database file, each
      under the name the operating system resolves a path string to; the
      database file is a file of the same disk, named by [prompts.db] and
      by every string that resolves to it.
    - A Python exception is an outcome [Raised e w]: it carries the world as
      it was when the exception left the function, so the effects that
      happened before it stay visible.
    - The Streamlit calls that only draw widgets are left out; the buttons
      and boxes are the inputs of a run, and [st.image] on a path, which
      reads the file, is modelled. *)

From Stdlib Require Import Ascii String.
From stdpp Require Import base option list strings gmap.

(** ** Data model *)

(** One row of the table [prompts], columns in the order of the
    [CREATE TABLE] statement. *)
Record Row := mkRow {
  id : string;
  prompt : string;
  expected_style : string;
  image_path : string;
  timestamp : string
}.

(** What [get_prompt_history] hands out for a row: the tuple
    [(prompt, expected_style, image_path, timestamp)]. *)
Definition HistoryRow : Type := string * string * string * string.

(** What a directory entry is.  [LockedFile] is a file the process may not
    unlink (its directory denies writing); [BrokenLink] is a symbolic link
    whose target is missing: [os.path.exists] says no, yet the name is
    taken. *)
Inductive Node := RegularFile | LockedFile | Directory | BrokenLink.

Inductive Exn :=
| OperationalError    (* sqlite3: no such table *)
| FileNotFoundError
| IsADirectoryError
| PermissionError
| GenerationError     (* anything the pipeline raises *)
| FileExistsError
| NotADirectoryError
| UnidentifiedImageError.   (* PIL: the file is no image *)

(** The values the program obtains from outside: the [n]-th call of
    [uuid.uuid4()], the [n]-th reading of the clock already formatted by
    [strftime], whether the diffusion pipeline yields an image for a
    prompt, and the directory entry the operating system finds for a path
    string: two strings that name the same file ([images/a.png],
    [./images/a.png]) have the same entry.  The program makes no link and
    removes no directory, so the entry of a string stays what it is. *)
Record Env := mkEnv {
  uuid4 : nat → string;
  now : nat → string;
  pipe : string → bool;
  realpath : string → string
}.

(** [table] is the content of the database file [prompts.db]; [fs] holds
    the directory entries beside that file, under the names [realpath]
    gives. *)
Record World := mkWorld {
  table : option (list Row);
  fs : gmap string Node;
  uuid_calls : nat;
  clock_calls : nat
}.

(** The entry of the database file, and whether a path string names it. *)
Definition db_entry (env : Env) : string := realpath env "prompts.db".

Definition is_database (env : Env) (path : string) : bool :=
  bool_decide (realpath env path = db_entry env).

Definition with_table (t : option (list Row)) (w : World) : World :=
  mkWorld t (fs w) (uuid_calls w) (clock_calls w).

Definition with_fs (f : gmap string Node) (w : World) : World :=
  mkWorld (table w) f (uuid_calls w) (clock_calls w).

#[global] Instance Node_eq_dec : EqDecision Node.
Proof. solve_decision. Defined.

#[global] Instance Exn_eq_dec : EqDecision Exn.
Proof. solve_decision. Defined.

#[global] Instance Row_eq_dec : EqDecision Row.
Proof. solve_decision. Defined.

(** ** Effects: state and exceptions *)

Inductive Outcome (A : Type) :=
| Returned (a : A) (w : World)
| Raised (e : Exn) (w : World).

Arguments Returned {A} a w.
Arguments Raised {A} e w.

Definition M (A : Type) : Type := Env → World → Outcome A.

Definition ret {A} (a : A) : M A := fun _ w => Returned a w.

Definition bind {A B} (m : M A) (k : A → M B) : M B :=
  fun env w =>
    match m env w with
    | Returned a w' => k a env w'
    | Raised e w' => Raised e w'
    end.

(** [try: body / except Exception as e: st.error(...)]: the handler of
    [main] only draws an error box, so the exception ends there. *)
Definition try_except (body : M unit) : M unit :=
  fun env w =>
    match body env w with
    | Returned a w' => Returned a w'
    | Raised _ w' => Returned tt w'
    end.

Notation "'let*' x ':=' m 'in' k" := (bind m (fun x => k))
  (at level 10, x name, m at level 100, k at level 200).
Notation "m ';;' k" := (bind m (fun _ => k))
  (at level 100, k at level 200, right associativity).

(** [for x in xs: body x] *)
Fixpoint for_each {A} (xs : list A) (body : A → M unit) : M unit :=
  match xs with
  | [] => ret tt
  | x :: rest => body x ;; for_each rest body
  end.

(** ** The outside world: identifiers, clock, files *)

Definition uuid_uuid4 : M string :=
  fun env w =>
    Returned (uuid4 env (uuid_calls w))
             (mkWorld (table w) (fs w) (S (uuid_calls w)) (clock_calls w)).

Definition datetime_now : M string :=
  fun env w =>
    Returned (now env (clock_calls w))
             (mkWorld (table w) (fs w) (uuid_calls w) (S (clock_calls w))).

(** [os.path.exists]: true for files and for directories, false for a
    name that is free or is a broken link.  The database file is there
    whenever the program asks: every call comes after a
    [sqlite3.connect], which creates the file. *)
Definition os_path_exists (path : string) : M bool :=
  fun env w =>
    Returned
      (if is_database env path then true
       else match fs w !! realpath env path with
            | None | Some BrokenLink => false
            | Some _ => true
            end)
      w.

(** [os.remove]: unlinks a file or a link; raises on a free name, on a
    directory and on a file it may not unlink.  Unlinking the database file
    takes the table with it. *)
Definition os_remove (path : string) : M unit :=
  fun env w =>
    if is_database env path then Returned tt (with_table None w)
    else
      match fs w !! realpath env path with
      | None => Raised FileNotFoundError w
      | Some RegularFile | Some BrokenLink =>
          Returned tt (with_fs (delete (realpath env path) (fs w)) w)
      | Some LockedFile => Raised PermissionError w
      | Some Directory => Raised IsADirectoryError w
      end.

(** ** The table [prompts] *)

Definition sql_create_table_if_not_exists : M unit :=
  fun _ w =>
    match table w with
    | None => Returned tt (with_table (Some []) w)
    | Some _ => Returned tt w
    end.

Definition sql_select_count : M nat :=
  fun _ w =>
    match table w with
    | None => Raised OperationalError w
    | Some rows => Returned (length rows) w
    end.

Definition sql_insert (r : Row) : M unit :=
  fun _ w =>
    match table w with
    | None => Raised OperationalError w
    | Some rows => Returned tt (with_table (Some (rows ++ [r])) w)
    end.

Definition project (r : Row) : HistoryRow :=
  (prompt r, expected_style r, image_path r, timestamp r).

(** [SELECT prompt, expected_style, image_path, timestamp FROM prompts] *)
Definition sql_select_history : M (list HistoryRow) :=
  fun _ w =>
    match table w with
    | None => Raised OperationalError w
    | Some rows => Returned (map project rows) w
    end.

(** [SELECT image_path FROM prompts WHERE image_path != ''] and the list
    comprehension [[row[0] for row in c.fetchall()]]. *)
Definition select_image_paths (rows : list Row) : list string :=
  map image_path (filter (fun r => image_path r ≠ EmptyString) rows).

Definition sql_select_image_paths : M (list string) :=
  fun _ w =>
    match table w with
    | None => Raised OperationalError w
    | Some rows => Returned (select_image_paths rows) w
    end.

(** [DELETE FROM prompts] *)
Definition sql_delete_all : M unit :=
  fun _ w =>
    match table w with
    | None => Raised OperationalError w
    | Some _ => Returned tt (with_table (Some []) w)
    end.

(** ** The functions of [main.py] *)

Definition mock_data : list (string * string) :=
  [ ("a fantasy castle in the clouds", "realistic");
    ("a futuristic robot chef in a kitchen", "cyberpunk");
    ("a panda riding a bicycle in space", "cartoon") ].

Definition init_db : M unit :=
  sql_create_table_if_not_exists ;;
  let* n := sql_select_count in
  if Nat.eqb n 0 then
    for_each mock_data (fun '(p, style) =>
      let* u := uuid_uuid4 in
      let* t := datetime_now in
      sql_insert (mkRow u p style EmptyString t))
  else ret tt.

Definition save_prompt (p style path : string) : M unit :=
  let* u := uuid_uuid4 in
  let* t := datetime_now in
  sql_insert (mkRow u p style path t).

Definition get_prompt_history : M (list HistoryRow) :=
  sql_select_history.

(** The body of the loop of [delete_prompt_history]. *)
Definition remove_if_exists (path : string) : M unit :=
  let* b := os_path_exists path in
  if b then os_remove path else ret tt.

Definition delete_prompt_history : M unit :=
  let* image_paths := sql_select_image_paths in
  for_each image_paths remove_if_exists ;;
  sql_delete_all.

(** ** Strings as Python uses them *)

Definition nl : string := String (ascii_of_nat 10) EmptyString.

(** [s * n] *)
Fixpoint py_mul (s : string) (n : nat) : string :=
  match n with
  | O => EmptyString
  | S k => s +:+ py_mul s k
  end.

(** The capitals among the code points below 256: A-Z, and the accented
    capitals from 192 to 222 except the multiplication sign 215. *)
Definition is_capital (n : nat) : bool :=
  (Nat.leb 65 n && Nat.leb n 90)
  || (Nat.leb 192 n && Nat.leb n 214)
  || (Nat.leb 216 n && Nat.leb n 222).

(** [str.lower] on one character. *)
Definition lower_char (c : ascii) : ascii :=
  let n := nat_of_ascii c in
  if is_capital n then ascii_of_nat (n + 32) else c.

Fixpoint lower (s : string) : string :=
  match s with
  | EmptyString => EmptyString
  | String c rest => String (lower_char c) (lower rest)
  end.

(** [needle in hay]: [needle] occurs in [hay] as a contiguous run. *)
Fixpoint py_in (needle hay : string) : bool :=
  match hay with
  | EmptyString => String.prefix needle EmptyString
  | String _ rest => String.prefix needle hay || py_in needle rest
  end.

(** Truth value of a [str]: non-empty. *)
Definition truthy (s : string) : bool :=
  match s with EmptyString => false | String _ _ => true end.

(** ** The report *)

Definition report_header : string :=
  "Evaluation Report" +:+ nl +:+ py_mul "=" 20 +:+ nl.

(** What one turn of the loop of [generate_report] appends. *)
Definition report_block (r : HistoryRow) : string :=
  let '(prompt, style, image_path, timestamp) := r in
  if truthy image_path then
    let alignment :=
      if py_in (lower style) (lower prompt) then "Aligned"
      else "Not fully aligned" in
    "Prompt: " +:+ prompt +:+ nl +:+ "Style: " +:+ style +:+ nl +:+
    "Image: " +:+ image_path +:+ nl +:+ "Alignment: " +:+ alignment +:+ nl +:+
    "Timestamp: " +:+ timestamp +:+ nl +:+ nl
  else
    "Prompt: " +:+ prompt +:+ nl +:+ "Style: " +:+ style +:+ nl +:+
    "Image: Not generated" +:+ nl +:+ "Alignment: N/A" +:+ nl +:+
    "Timestamp: " +:+ timestamp +:+ nl +:+ nl.

Definition generate_report (history : list HistoryRow) : string :=
  fold_left (fun report r => report +:+ report_block r) history report_header.

(** ** The parts of [main] that reach the store *)

(** The text before the last slash of a path: the directory a file of
    that name goes into ([images] for [images/x.png], nothing for a name
    without slash). *)
Fixpoint has_slash (s : string) : bool :=
  match s with
  | EmptyString => false
  | String c rest => Ascii.eqb c "/" || has_slash rest
  end.

Fixpoint dirname (path : string) : string :=
  match path with
  | EmptyString => EmptyString
  | String c rest =>
      if has_slash rest then String c (dirname rest) else EmptyString
  end.

(** Opening a file for writing, as [image.save] does: the directory must be
    there, and the name must not be a directory or a protected file;
    otherwise the file is created or overwritten. *)
Definition open_for_writing (path : string) : M unit :=
  fun env w =>
    if is_database env path then Returned tt (with_table None w)
    else
      match fs w !! realpath env path with
      | Some Directory => Raised IsADirectoryError w
      | Some LockedFile => Raised PermissionError w
      | _ =>
          Returned tt
            (with_fs (<[realpath env path := RegularFile]> (fs w)) w)
      end.

(** [image.save(image_path)].  Writing over the database file leaves no
    table behind. *)
Definition image_save (path : string) : M unit :=
  fun env w =>
    if String.eqb (dirname path) EmptyString then open_for_writing path env w
    else if is_database env (dirname path) then Raised NotADirectoryError w
    else
      match fs w !! realpath env (dirname path) with
      | Some Directory => open_for_writing path env w
      | Some RegularFile | Some LockedFile => Raised NotADirectoryError w
      | None | Some BrokenLink => Raised FileNotFoundError w
      end.

(** [load_model()] and [pipe(prompt).images[0]] *)
Definition run_pipeline (p : string) : M unit :=
  fun env w => if pipe env p then Returned tt w else Raised GenerationError w.

(** The form handler: [if generate_button and prompt: ...]. *)
Definition main_generate (generate_button : bool) (p style : string) : M unit :=
  if generate_button && truthy p then
    try_except (
      run_pipeline p ;;
      let* u := uuid_uuid4 in
      let path := "images/" +:+ u +:+ ".png" in
      image_save path ;;
      save_prompt p style path)
  else ret tt.

(** [history = get_prompt_history()] followed, on the report button, by
    [report = generate_report(history)]. *)
Definition main_report : M string :=
  let* history := get_prompt_history in
  ret (generate_report history).


(** ** Vocabulary of the statements *)





(** A block of the report with its five fields filled in. *)
Definition block_text (p style image alignment time : string) : string :=
  "Prompt: " +:+ p +:+ nl +:+ "Style: " +:+ style +:+ nl +:+
  "Image: " +:+ image +:+ nl +:+ "Alignment: " +:+ alignment +:+ nl +:+
  "Timestamp: " +:+ time +:+ nl +:+ nl.

Definition image_ref (path : string) : string :=
  if decide (path = EmptyString) then "Not generated" else path.

Fixpoint join (blocks : list string) : string :=
  match blocks with
  | [] => EmptyString
  | b :: rest => b +:+ join rest
  end.

(** A run of [save_prompt] calls, one per argument triple. *)
Definition save_all (ops : list (string * string * string)) : M unit :=
  for_each ops (fun '(p, style, path) => save_prompt p style path).

(** The rows such a run appends when the identifier and clock counters
    stand at [u] and [c]. *)
Fixpoint fresh_rows (env : Env) (u c : nat)
    (ops : list (string * string * string)) : list Row :=
  match ops with
  | [] => []
  | (p, style, path) :: rest =>
      mkRow (uuid4 env u) p style path (now env c)
        :: fresh_rows env (S u) (S c) rest
  end.

Definition fresh_ids (env : Env) (u n : nat) : list string :=
  map (uuid4 env) (seq u n).

(** The value of a normal return. *)
Definition value {A} (o : Outcome A) : option A :=
  match o with Returned a _ => Some a | Raised _ _ => None end.

(** A path the loop of [delete_prompt_history] gets past: it is not the
    database file, and its name is free or is a file that can be unlinked. *)
Definition removable (env : Env) (f : gmap string Node) (path : string) : Prop :=
  is_database env path = false
  ∧ (f !! realpath env path = None ∨ f !! realpath env path = Some RegularFile).

(** A path [os.remove] fails on: a protected file or a directory. *)
Definition stuck (env : Env) (f : gmap string Node) (path : string) : Prop :=
  is_database env path = false
  ∧ (f !! realpath env path = Some LockedFile
     ∨ f !! realpath env path = Some Directory).




(** ** Sample environment and worlds *)

(** Identifiers that never repeat, a clock that stands still within the
    second, a pipeline that always delivers, and path strings that are
    their own directory entries. *)
Definition sample_env : Env :=
  mkEnv (fun n => "uuid-" +:+ py_mul "i" n)
        (fun _ => "2024-05-01 12:00:00")
        (fun _ => true)
        (fun path => path).

Definition empty_world : World := mkWorld None ∅ 0 0.

Definition fresh_world : World := mkWorld (Some []) ∅ 0 0.

(** Two records share one image file. *)
Definition shared_path_rows : list Row :=
  [ mkRow "id-1" "a city" "cartoon" "images/a.png" "2024-05-01 12:00:00";
    mkRow "id-2" "a town" "cartoon" "images/a.png" "2024-05-01 12:00:05";
    mkRow "id-3" "a lake" "realistic" EmptyString "2024-05-01 12:00:09" ].

(** The second record points at the directory [images] itself. *)
Definition stuck_rows : list Row :=
  [ mkRow "id-1" "a city" "cartoon" "images/a.png" "2024-05-01 12:00:00";
    mkRow "id-2" "a town" "cartoon" "images" "2024-05-01 12:00:05";
    mkRow "id-3" "a lake" "realistic" "images/b.png" "2024-05-01 12:00:09" ].

Definition stuck_world : World :=
  mkWorld (Some stuck_rows)
          {[ "images" := Directory;
             "images/a.png" := RegularFile;
             "images/b.png" := RegularFile ]}
          3 3.

Definition one_file_rows : list Row :=
  [ mkRow "id-1" "a city" "cartoon" "images/a.png" "2024-05-01 12:00:00" ].

Definition world_with_file : World :=
  mkWorld (Some one_file_rows) {[ "images/a.png" := RegularFile ]} 1 1.

Definition world_without_file : World :=
  mkWorld (Some one_file_rows) ∅ 1 1.




(** ** One run of the script *)

(** What the widgets of the page hand to one run of [main]: the text of
    the prompt box, the chosen style, and which button was pressed. *)
Record Inputs := mkInputs {
  in_prompt : string;
  in_style : string;
  press_generate : bool;
  press_report : bool;
  press_clear : bool
}.

(** What a run puts on the page out of the store: the history it read and,
    on the report button, the report. *)
Record Screen := mkScreen {
  shown_history : list HistoryRow;
  shown_report : option string
}.

(** [os.makedirs]: creates the directory when the name is free, raises when
    the name is taken, by a broken link too. *)
Definition os_makedirs (path : string) : M unit :=
  fun env w =>
    if is_database env path then Raised FileExistsError w
    else
      match fs w !! realpath env path with
      | None =>
          Returned tt (with_fs (<[realpath env path := Directory]> (fs w)) w)
      | Some _ => Raised FileExistsError w
      end.

(** [if not os.path.exists("images"): os.makedirs("images")] *)
Definition main_make_images_dir : M unit :=
  let* b := os_path_exists "images" in
  if b then ret tt else os_makedirs "images".

(** [main] from [init_db()] to [history = get_prompt_history()]. *)
Definition main_open (i : Inputs) : M (list HistoryRow) :=
  init_db ;;
  main_make_images_dir ;;
  main_generate (press_generate i) (in_prompt i) (in_style i) ;;
  get_prompt_history.

(** [st.image(image_path, ...)] with a path: Streamlit opens the file and
    fails when it cannot (the error of [open], wrapped in a
    [MediaFileStorageError] by later versions); the files beside the
    database are taken to be images, the database file is none. *)
Definition st_image (path : string) : M unit :=
  fun env w =>
    if is_database env path then Raised UnidentifiedImageError w
    else
      match fs w !! realpath env path with
      | Some RegularFile | Some LockedFile => Returned tt w
      | Some Directory => Raised IsADirectoryError w
      | None | Some BrokenLink => Raised FileNotFoundError w
      end.

(** The two loops of [main] over the history, the list and the gallery:
    [if image_path: st.image(image_path, ...)]. *)
Definition show_images (history : list HistoryRow) : M unit :=
  for_each history (fun '(_, _, image_path, _) =>
    if truthy image_path then st_image image_path else ret tt).

Definition main (i : Inputs) : M Screen :=
  let* history := main_open i in
  (match history with
   | [] => ret tt                       (* "No prompts yet." *)
   | _ :: _ => show_images history
   end) ;;
  show_images history ;;
  let report :=
    if press_report i then Some (generate_report history) else None in
  (if press_clear i then delete_prompt_history else ret tt) ;;
  ret (mkScreen history report).





Definition clear_inputs : Inputs :=
  mkInputs EmptyString "realistic" false false true.

(** * Properties *)

(** ** Strings *)

Lemma append_nil_l (b : string) : EmptyString +:+ b = b.
Proof. reflexivity. Qed.

Lemma append_cons (x : ascii) (a b : string) :
  String x a +:+ b = String x (a +:+ b).
Proof. reflexivity. Qed.

Ltac push_append :=
  repeat (rewrite append_cons in * || rewrite append_nil_l in * ).

Lemma append_assoc (a b c : string) : (a +:+ b) +:+ c = a +:+ (b +:+ c).
Proof. induction a as [|x a IH]; push_append; [done | by f_equal]. Qed.

Lemma append_nil_r (a : string) : a +:+ EmptyString = a.
Proof. induction a as [|x a IH]; push_append; [done | by f_equal]. Qed.


Lemma prefix_spec (a s : string) :
  String.prefix a s = true ↔ ∃ post, s = a +:+ post.
Proof.
  revert s. induction a as [|x a IH]; intros s.
  - split; [intros _; by exists s | intros _; by destruct s].
  - destruct s as [|y s]; cbn [String.prefix].
    + split; [done | intros [post H]; discriminate].
    + destruct (ascii_dec x y) as [->|Hne].
      * rewrite IH. split; intros [post H]; exists post;
          push_append; congruence.
      * split; [done | intros [post H]; push_append; congruence].
Qed.

Lemma py_in_spec (a s : string) :
  py_in a s = true ↔ ∃ pre post, s = pre +:+ a +:+ post.
Proof.
  induction s as [|y s IH]; cbn [py_in].
  - rewrite prefix_spec. split.
    + intros [post H]. by exists EmptyString, post.
    + intros [pre [post H]].
      destruct pre; push_append; [by exists post | discriminate].
  - rewrite orb_true_iff, IH, prefix_spec. split.
    + intros [[post H] | [pre [post H]]].
      * by exists EmptyString, post.
      * exists (String y pre), post. push_append. by rewrite H.
    + intros [pre [post H]]. destruct pre as [|z pre]; push_append.
      * left. by exists post.
      * right. exists pre, post. congruence.
Qed.












(** ** The report *)

Section Report.

Variables p style path time : string.

Lemma report_block_no_image :
  path = EmptyString →
  report_block (p, style, path, time)
  = block_text p style "Not generated" "N/A" time.
Proof. intros ->. reflexivity. Qed.

Lemma report_block_image :
  path ≠ EmptyString →
  report_block (p, style, path, time)
  = block_text p style path
      (if py_in (lower style) (lower p) then "Aligned"
       else "Not fully aligned") time.
Proof. intros H. destruct path; [done | reflexivity]. Qed.

(** Every block has the five fields, and its alignment is one of the
    three labels. *)
Lemma report_block_shape :
  ∃ label,
    report_block (p, style, path, time)
    = block_text p style (image_ref path) label time
    ∧ label ∈ ["Aligned"; "Not fully aligned"; "N/A"].
Proof.
  unfold image_ref. destruct (decide (path = EmptyString)) as [E|E].
  - exists "N/A". split; [by apply report_block_no_image | set_solver].
  - rewrite (report_block_image E).
    destruct (py_in (lower style) (lower p)); eexists; split; try done;
      set_solver.
Qed.

End Report.

Lemma generate_report_from (history : list HistoryRow) (acc : string) :
  fold_left (fun report r => report +:+ report_block r) history acc
  = acc +:+ join (map report_block history).
Proof.
  revert acc. induction history as [|r history IH]; intros acc; simpl.
  - by rewrite append_nil_r.
  - by rewrite IH, append_assoc.
Qed.

(** The three records of the specification's alignment example. *)
Example report_block_aligned :
  report_block ("a cyberpunk city", "cyberpunk", "x.png", "t")
  = block_text "a cyberpunk city" "cyberpunk" "x.png" "Aligned" "t".
Proof. reflexivity. Qed.

Example report_block_not_aligned :
  report_block ("a city", "cyberpunk", "x.png", "t")
  = block_text "a city" "cyberpunk" "x.png" "Not fully aligned" "t".
Proof. reflexivity. Qed.

Example report_block_not_applicable :
  report_block ("a city", "cyberpunk", EmptyString, "t")
  = block_text "a city" "cyberpunk" "Not generated" "N/A" "t".
Proof. reflexivity. Qed.




(** C5. For every input sequence, the report is the fixed header, whose
    first line is the title, followed by one block per record in the order
    of the input; each block has the prompt, the style, the image path or
    the marker Not generated, an alignment label and the timestamp of its
    record. *)
Theorem report_structure (history : list HistoryRow) :
  generate_report history
  = ("Evaluation Report" +:+ nl +:+ py_mul "=" 20 +:+ nl)
    +:+ join (map report_block history)
  ∧ length (map report_block history) = length history
  ∧ ∀ i r, history !! i = Some r →
      map report_block history !! i = Some (report_block r)
      ∧ ∃ label,
          report_block r
          = block_text r.1.1.1 r.1.1.2 (image_ref r.1.2) label r.2
          ∧ label ∈ ["Aligned"; "Not fully aligned"; "N/A"].
Proof.
  split; [| split].
  - unfold generate_report. by rewrite generate_report_from.
  - by rewrite length_map.
  - intros i [[[p style] path] time] Hi. split.
    + by rewrite list_lookup_fmap, Hi.
    + apply report_block_shape.
Qed.

(** C7. The report depends on the records alone: whatever the clock, the
    identifier source, the pipeline, the files on disk and the counters are,
    two runs over the same stored records return the same text,
    [generate_report] of those records, and leave the world as it was. *)
Theorem generate_report_deterministic
    (env1 env2 : Env) (rows : list Row)
    (f1 f2 : gmap string Node) (u1 u2 c1 c2 : nat) :
  main_report env1 (mkWorld (Some rows) f1 u1 c1)
  = Returned (generate_report (map project rows)) (mkWorld (Some rows) f1 u1 c1)
  ∧ main_report env2 (mkWorld (Some rows) f2 u2 c2)
  = Returned (generate_report (map project rows)) (mkWorld (Some rows) f2 u2 c2).
Proof. split; reflexivity. Qed.

(** ** Inserting and listing *)

Section Store.

Variable env : Env.

Lemma with_fs_same (w : World) : with_fs (fs w) w = w.
Proof. by destruct w. Qed.

Lemma save_prompt_run (w : World) (rows : list Row) (p style path : string) :
  table w = Some rows →
  save_prompt p style path env w
  = Returned tt
      (mkWorld
         (Some (rows ++ [mkRow (uuid4 env (uuid_calls w)) p style path
                               (now env (clock_calls w))]))
         (fs w) (S (uuid_calls w)) (S (clock_calls w))).
Proof.
  intros H. unfold save_prompt, bind, uuid_uuid4, datetime_now, sql_insert.
  simpl. by rewrite H.
Qed.

Lemma save_all_run (ops : list (string * string * string)) :
  ∀ (w : World) (rows : list Row),
    table w = Some rows →
    save_all ops env w
    = Returned tt
        (mkWorld
           (Some (rows ++ fresh_rows env (uuid_calls w) (clock_calls w) ops))
           (fs w) (uuid_calls w + length ops) (clock_calls w + length ops)).
Proof.
  induction ops as [|[[p style] path] ops IH]; intros w rows H.
  - simpl. rewrite app_nil_r, !Nat.add_0_r, <- H. by destruct w.
  - unfold save_all in *. cbn [for_each]. unfold bind at 1.
    rewrite (save_prompt_run _ _ _ _ _ H).
    erewrite IH by reflexivity.
    cbn [fresh_rows length uuid_calls clock_calls fs].
    by rewrite <- app_assoc, !Nat.add_succ_r.
Qed.

Lemma fresh_rows_fields (ops : list (string * string * string)) :
  ∀ u c,
    map (fun r => (prompt r, expected_style r, image_path r))
        (fresh_rows env u c ops) = ops.
Proof.
  induction ops as [|[[p style] path] ops IH]; intros u c; simpl;
    [done | by rewrite IH].
Qed.

Lemma fresh_rows_ids (ops : list (string * string * string)) :
  ∀ u c, map id (fresh_rows env u c ops) = fresh_ids env u (length ops).
Proof.
  unfold fresh_ids.
  induction ops as [|[[p style] path] ops IH]; intros u c; simpl;
    [done | by rewrite IH].
Qed.

Lemma fresh_rows_timestamps (ops : list (string * string * string)) :
  ∀ u c,
    map timestamp (fresh_rows env u c ops) = map (now env) (seq c (length ops)).
Proof.
  induction ops as [|[[p style] path] ops IH]; intros u c; simpl;
    [done | by rewrite IH].
Qed.

End Store.

(** C1 (as the code has it). After any run of [save_prompt] calls on an
    initialised store, [get_prompt_history] returns, for the rows that were
    there before (the seed rows among them) followed by one row per call in
    the order of the calls, the tuple (prompt, style, image_path, timestamp):
    the arguments of the call and the clock reading of its insertion.  The
    tuples carry no id.  The ids are kept in the table only: they are the
    values [uuid4] handed out, pairwise distinct whenever those values and
    the ids already stored are. *)
Theorem history_after_inserts
    (env : Env) (w : World) (rows : list Row)
    (ops : list (string * string * string)) :
  table w = Some rows →
  let added := fresh_rows env (uuid_calls w) (clock_calls w) ops in
  ∃ w',
    (save_all ops ;; get_prompt_history) env w
    = Returned (map project rows ++ map project added) w'
    ∧ table w' = Some (rows ++ added)
    ∧ map (fun h : HistoryRow => (h.1.1.1, h.1.1.2, h.1.2)) (map project added)
      = ops
    ∧ map (fun h : HistoryRow => h.2) (map project added)
      = map (now env) (seq (clock_calls w) (length ops))
    ∧ map id added = fresh_ids env (uuid_calls w) (length ops)
    ∧ (NoDup (map id rows ++ fresh_ids env (uuid_calls w) (length ops)) →
       NoDup (map id (rows ++ added))).
Proof.
  intros H added. eexists. split; [| split; [| split; [| split; [| split]]]].
  - unfold bind. rewrite (save_all_run env ops w rows H).
    unfold get_prompt_history, sql_select_history. cbn [table].
    by rewrite map_app.
  - reflexivity.
  - rewrite map_map. apply (fresh_rows_fields env).
  - rewrite map_map. apply (fresh_rows_timestamps env).
  - apply fresh_rows_ids.
  - intros Hnd. rewrite map_app. unfold added. by rewrite fresh_rows_ids.
Qed.

Lemma history_after_inserts_witness :
  table fresh_world = Some [] ∧
  ∃ w',
    (save_all [("a city", "cartoon", "x.png"); ("a lake", "realistic", EmptyString)]
     ;; get_prompt_history) sample_env fresh_world
    = Returned
        (map project [] ++
         map project
           (fresh_rows sample_env 0 0
              [("a city", "cartoon", "x.png"); ("a lake", "realistic", EmptyString)]))
        w'.
Proof.
  split; [reflexivity |].
  destruct (history_after_inserts sample_env fresh_world []
              [("a city", "cartoon", "x.png"); ("a lake", "realistic", EmptyString)]
              eq_refl) as (w' & H & _).
  exists w'. exact H.
Defined.

(** C1 (as stated) fails: two calls with the same arguments within one
    second store two rows with different ids, and [get_prompt_history]
    returns two equal tuples; nothing in what it returns tells the ids. *)
Lemma history_rows_carry_no_id :
  ∃ (h : list HistoryRow) (w' : World) (stored : list Row),
    (save_all [("a city", "cartoon", "x.png"); ("a city", "cartoon", "x.png")]
     ;; get_prompt_history) sample_env fresh_world = Returned h w'
    ∧ table w' = Some stored
    ∧ map id stored = ["uuid-"; "uuid-i"]
    ∧ h = [("a city", "cartoon", "x.png", "2024-05-01 12:00:00");
           ("a city", "cartoon", "x.png", "2024-05-01 12:00:00")]
    ∧ ¬ NoDup h
    ∧ ¬ ∃ id_of : HistoryRow → string, map id_of h = map id stored.
Proof.
  eexists _, _, _. split; [reflexivity |]. split; [reflexivity |].
  split; [reflexivity |]. split; [reflexivity |]. split.
  - intros Hnd. apply NoDup_cons in Hnd as [Hnotin _].
    apply Hnotin. by left.
  - intros [id_of H]. vm_compute in H. congruence.
Qed.

(** ** Gathering the image paths *)

Lemma select_image_paths_cons (r : Row) (rows : list Row) :
  select_image_paths (r :: rows)
  = if decide (image_path r ≠ EmptyString)
    then image_path r :: select_image_paths rows
    else select_image_paths rows.
Proof.
  unfold select_image_paths. rewrite filter_cons.
  by destruct (decide (image_path r ≠ EmptyString)).
Qed.

Lemma elem_of_select_image_paths (rows : list Row) (p : string) :
  p ∈ select_image_paths rows ↔ p ≠ EmptyString ∧ ∃ r, r ∈ rows ∧ image_path r = p.
Proof.
  unfold select_image_paths. rewrite list_elem_of_fmap. split.
  - intros (r & -> & Hr). apply list_elem_of_filter in Hr as [Hne Hr].
    split; [done | by exists r].
  - intros (Hne & r & Hr & <-). exists r. split; [done |].
    by apply list_elem_of_filter.
Qed.

Lemma count_select_image_paths (rows : list Row) (p : string) :
  p ≠ EmptyString →
  length (filter (fun q => q = p) (select_image_paths rows))
  = length (filter (fun r => image_path r = p) rows).
Proof.
  intros Hp. induction rows as [|r rows IH]; [done |].
  rewrite select_image_paths_cons, (filter_cons (fun r => image_path r = p)).
  destruct (decide (image_path r ≠ EmptyString)) as [Hne|He].
  - rewrite filter_cons.
    destruct (decide (image_path r = p)); simpl; by rewrite IH.
  - destruct (decide (image_path r = p)) as [E|E]; [| done].
    exfalso. apply He. congruence.
Qed.

Lemma select_image_paths_sublist (rows : list Row) :
  sublist (select_image_paths rows) (image_path <$> rows).
Proof.
  induction rows as [|r rows IH]; [constructor |].
  rewrite select_image_paths_cons, fmap_cons.
  destruct (decide (image_path r ≠ EmptyString)).
  - by apply sublist_skip.
  - by apply sublist_cons.
Qed.

Lemma select_image_paths_filter (rows : list Row) :
  select_image_paths rows
  = filter (fun p => p ≠ EmptyString) (image_path <$> rows).
Proof.
  induction rows as [|r rows IH]; [done |].
  rewrite select_image_paths_cons, fmap_cons, filter_cons, IH.
  by destruct (decide (image_path r ≠ EmptyString)).
Qed.

(** C2 (as the code has it). The list of paths [delete_prompt_history]
    gathers, and then walks through, holds exactly the non-empty
    [image_path] values stored at that moment, in storage order, and never
    the empty one; it is not made distinct: a path appears once for every
    record that carries it. *)
Theorem gathered_image_paths
    (env : Env) (rows : list Row) (f : gmap string Node) (u c : nat) :
  sql_select_image_paths env (mkWorld (Some rows) f u c)
  = Returned (select_image_paths rows) (mkWorld (Some rows) f u c)
  ∧ delete_prompt_history env (mkWorld (Some rows) f u c)
    = (for_each (select_image_paths rows) remove_if_exists ;; sql_delete_all)
        env (mkWorld (Some rows) f u c)
  ∧ (∀ p, p ∈ select_image_paths rows
          ↔ p ≠ EmptyString ∧ ∃ r, r ∈ rows ∧ image_path r = p)
  ∧ (EmptyString ∉ select_image_paths rows)
  ∧ (∀ p, p ≠ EmptyString →
       length (filter (fun q => q = p) (select_image_paths rows))
       = length (filter (fun r => image_path r = p) rows))
  ∧ sublist (select_image_paths rows) (image_path <$> rows)
  ∧ select_image_paths rows
    = filter (fun p => p ≠ EmptyString) (image_path <$> rows).
Proof.
  split; [reflexivity |]. split; [reflexivity |].
  split; [apply elem_of_select_image_paths |]. split; [| split; [| split]].
  - intros H. by apply elem_of_select_image_paths in H as [H _].
  - apply count_select_image_paths.
  - apply select_image_paths_sublist.
  - apply select_image_paths_filter.
Qed.

(** C2 (as stated) fails: when two records share an image file the gathered
    list names the file twice. *)
Lemma gathered_image_paths_repeat :
  sql_select_image_paths sample_env (mkWorld (Some shared_path_rows) ∅ 3 3)
  = Returned ["images/a.png"; "images/a.png"]
             (mkWorld (Some shared_path_rows) ∅ 3 3)
  ∧ ¬ NoDup (select_image_paths shared_path_rows).
Proof.
  split; [reflexivity |].
  intros Hnd. change (select_image_paths shared_path_rows)
    with ["images/a.png"; "images/a.png"] in Hnd.
  apply NoDup_cons in Hnd as [Hnotin _]. apply Hnotin. by left.
Qed.

(** ** Removing the image files *)

Lemma for_each_app {A} (l1 l2 : list A) (body : A → M unit)
    (env : Env) (w : World) :
  for_each (l1 ++ l2) body env w
  = (for_each l1 body ;; for_each l2 body) env w.
Proof.
  revert w. induction l1 as [|x l1 IH]; intros w; [done |].
  cbn [app for_each]. unfold bind.
  destruct (body x env w) as [[] w1 | e w1]; [| done].
  rewrite IH. reflexivity.
Qed.

Section Cleanup.

Variable env : Env.

Lemma remove_if_exists_absent (w : World) (path : string) :
  is_database env path = false →
  fs w !! realpath env path = None →
  remove_if_exists path env w = Returned tt w.
Proof.
  intros Hdb H. unfold remove_if_exists, bind, os_path_exists.
  by rewrite Hdb, H.
Qed.

Lemma remove_if_exists_regular (w : World) (path : string) :
  is_database env path = false →
  fs w !! realpath env path = Some RegularFile →
  remove_if_exists path env w
  = Returned tt (with_fs (delete (realpath env path) (fs w)) w).
Proof.
  intros Hdb H. unfold remove_if_exists, bind, os_path_exists, os_remove.
  rewrite Hdb, H. cbv beta iota. by rewrite Hdb, H.
Qed.

Lemma remove_if_exists_locked (w : World) (path : string) :
  is_database env path = false →
  fs w !! realpath env path = Some LockedFile →
  remove_if_exists path env w = Raised PermissionError w.
Proof.
  intros Hdb H. unfold remove_if_exists, bind, os_path_exists, os_remove.
  rewrite Hdb, H. cbv beta iota. by rewrite Hdb, H.
Qed.

Lemma remove_if_exists_directory (w : World) (path : string) :
  is_database env path = false →
  fs w !! realpath env path = Some Directory →
  remove_if_exists path env w = Raised IsADirectoryError w.
Proof.
  intros Hdb H. unfold remove_if_exists, bind, os_path_exists, os_remove.
  rewrite Hdb, H. cbv beta iota. by rewrite Hdb, H.
Qed.

Lemma remove_if_exists_database (w : World) (path : string) :
  is_database env path = true →
  remove_if_exists path env w = Returned tt (with_table None w).
Proof.
  intros Hdb. unfold remove_if_exists, bind, os_path_exists, os_remove.
  rewrite Hdb. cbv beta iota. by rewrite Hdb.
Qed.

(** The loop over the gathered paths when each of them is the database
    file or can be got past: files are unlinked, and the table is lost as
    soon as one path names the database. *)
Lemma sweep_run (paths : list string) :
  ∀ w,
    (∀ p, p ∈ paths →
          is_database env p = true ∨ removable env (fs w) p) →
    ∃ f',
      for_each paths remove_if_exists env w
      = Returned tt
          (mkWorld
             (if existsb (is_database env) paths then None else table w)
             f' (uuid_calls w) (clock_calls w))
      ∧ (∀ p, p ∈ paths → is_database env p = false →
              f' !! realpath env p = None)
      ∧ (∀ k, k ∉ realpath env <$> paths → f' !! k = fs w !! k).
Proof.
  induction paths as [|x paths IH]; intros w Hall.
  - exists (fs w). cbn. unfold ret. split; [by destruct w |].
    split; [| done]. intros p Hp. by apply elem_of_nil in Hp.
  - cbn [for_each existsb]. unfold bind at 1.
    destruct (Hall x) as [Hdb | [Hdb Hx]]; [by left | |].
    + rewrite (remove_if_exists_database _ _ Hdb), Hdb. cbn [orb].
      destruct (IH (with_table None w)) as (f' & Hrun & Hin & Hout).
      { intros p Hp. apply Hall. by right. }
      exists f'. split.
      { rewrite Hrun. cbn [with_table table uuid_calls clock_calls].
        by destruct (existsb (is_database env) paths). }
      split.
      * intros p Hp Hp'. apply elem_of_cons in Hp as [-> | Hp];
          [congruence | by apply Hin].
      * intros k Hk. rewrite fmap_cons in Hk.
        apply not_elem_of_cons in Hk as [_ Hk]. by apply Hout.
    + rewrite Hdb. cbn [orb]. destruct Hx as [Hx | Hx].
      * rewrite (remove_if_exists_absent _ _ Hdb Hx).
        destruct (IH w) as (f' & Hrun & Hin & Hout).
        { intros p Hp. apply Hall. by right. }
        exists f'. split; [exact Hrun |]. split.
        -- intros p Hp Hp'. apply elem_of_cons in Hp as [-> | Hp];
             [| by apply Hin].
           destruct (decide (realpath env x ∈ realpath env <$> paths))
             as [Hmem | Hmem].
           ++ apply list_elem_of_fmap in Hmem as (q & Hq & Hmem).
              destruct (Hall q) as [Hqdb | [Hqdb _]]; [by right | |].
              ** unfold is_database in Hdb, Hqdb.
                 apply bool_decide_eq_false in Hdb.
                 apply bool_decide_eq_true in Hqdb. congruence.
              ** rewrite Hq. by apply Hin.
           ++ by rewrite Hout.
        -- intros k Hk. rewrite fmap_cons in Hk.
           apply not_elem_of_cons in Hk as [_ Hk]. by apply Hout.
      * rewrite (remove_if_exists_regular _ _ Hdb Hx).
        destruct (IH (with_fs (delete (realpath env x) (fs w)) w))
          as (f' & Hrun & Hin & Hout).
        { intros p Hp. destruct (Hall p) as [Hpdb | [Hpdb Hp']];
            [by right | by left |].
          right. split; [done |]. cbn [with_fs fs].
          destruct (decide (realpath env x = realpath env p)) as [<- | Hne].
          - left. apply lookup_delete_eq.
          - by rewrite lookup_delete_ne. }
        exists f'. split; [exact Hrun |]. split.
        -- intros p Hp Hp'. apply elem_of_cons in Hp as [-> | Hp];
             [| by apply Hin].
           destruct (decide (realpath env x ∈ realpath env <$> paths))
             as [Hmem | Hmem].
           ++ apply list_elem_of_fmap in Hmem as (q & Hq & Hmem).
              destruct (Hall q) as [Hqdb | [Hqdb _]]; [by right | |].
              ** unfold is_database in Hdb, Hqdb.
                 apply bool_decide_eq_false in Hdb.
                 apply bool_decide_eq_true in Hqdb. congruence.
              ** rewrite Hq. by apply Hin.
           ++ rewrite Hout by done. cbn [with_fs fs].
              apply lookup_delete_eq.
        -- intros k Hk. rewrite fmap_cons in Hk.
           apply not_elem_of_cons in Hk as [Hne Hk].
           rewrite Hout by done. cbn [with_fs fs].
           by rewrite lookup_delete_ne.
Qed.

Lemma no_database_among (paths : list string) (f : gmap string Node) :
  (∀ p, p ∈ paths → removable env f p) →
  existsb (is_database env) paths = false.
Proof.
  intros Hall. induction paths as [|x paths IH]; [done |].
  cbn [existsb]. destruct (Hall x) as [-> _]; [by left |].
  apply IH. intros p Hp. apply Hall. by right.
Qed.

(** The loop when nothing is in its way. *)
Lemma sweep_removable (paths : list string) (w : World) :
  (∀ p, p ∈ paths → removable env (fs w) p) →
  ∃ f',
    for_each paths remove_if_exists env w = Returned tt (with_fs f' w)
    ∧ (∀ p, p ∈ paths → f' !! realpath env p = None)
    ∧ (∀ k, k ∉ realpath env <$> paths → f' !! k = fs w !! k).
Proof.
  intros Hall.
  destruct (sweep_run paths w) as (f' & Hrun & Hin & Hout).
  { intros p Hp. right. by apply Hall. }
  rewrite (no_database_among paths (fs w) Hall) in Hrun.
  exists f'. split; [exact Hrun |]. split; [| exact Hout].
  intros p Hp. apply Hin; [done |]. by destruct (Hall p Hp).
Qed.

(** The loop when the paths [pre] can be got past and the next one
    cannot: the exception leaves the loop there. *)
Lemma sweep_partial (pre post : list string) (bad : string) (w : World) :
  (∀ p, p ∈ pre → removable env (fs w) p) →
  stuck env (fs w) bad →
  ∃ e f',
    for_each (pre ++ bad :: post) remove_if_exists env w
    = Raised e (with_fs f' w)
    ∧ (fs w !! realpath env bad = Some LockedFile → e = PermissionError)
    ∧ (fs w !! realpath env bad = Some Directory → e = IsADirectoryError)
    ∧ (∀ p, p ∈ pre → f' !! realpath env p = None)
    ∧ (∀ k, k ∉ realpath env <$> pre → f' !! k = fs w !! k).
Proof.
  intros Hpre [Hdb Hbad].
  destruct (sweep_removable pre w Hpre) as (f' & Hrun & Hin & Hout).
  assert (realpath env bad ∉ realpath env <$> pre) as Hnotin.
  { intros Hmem. apply list_elem_of_fmap in Hmem as (q & Hq & Hmem).
    destruct (Hpre q Hmem) as [_ Hq']. rewrite <- Hq in Hq'.
    destruct Hq', Hbad; congruence. }
  assert (f' !! realpath env bad = fs w !! realpath env bad) as Hsame
    by by apply Hout.
  assert (∃ e,
            remove_if_exists bad env (with_fs f' w) = Raised e (with_fs f' w)
            ∧ (fs w !! realpath env bad = Some LockedFile → e = PermissionError)
            ∧ (fs w !! realpath env bad = Some Directory
               → e = IsADirectoryError))
    as (e & He & Hlocked & Hdir).
  { destruct Hbad as [Hb | Hb].
    - exists PermissionError. split; [| split; [done | congruence]].
      apply remove_if_exists_locked; [done |]. cbn [with_fs fs]. congruence.
    - exists IsADirectoryError. split; [| split; [congruence | done]].
      apply remove_if_exists_directory; [done |]. cbn [with_fs fs].
      congruence. }
  exists e, f'. split; [| by repeat split].
  rewrite for_each_app. unfold bind at 1. rewrite Hrun.
  cbn [for_each]. unfold bind at 1. by rewrite He.
Qed.

Lemma delete_prompt_history_removable (w : World) (rows : list Row) :
  table w = Some rows →
  (∀ p, p ∈ select_image_paths rows → removable env (fs w) p) →
  ∃ f',
    delete_prompt_history env w
    = Returned tt (mkWorld (Some []) f' (uuid_calls w) (clock_calls w))
    ∧ (∀ p, p ∈ select_image_paths rows → f' !! realpath env p = None)
    ∧ (∀ k, k ∉ realpath env <$> select_image_paths rows →
            f' !! k = fs w !! k).
Proof.
  intros Ht Hall.
  destruct (sweep_removable _ w Hall) as (f' & Hrun & Hin & Hout).
  exists f'. split; [| done].
  unfold delete_prompt_history, bind, sql_select_image_paths.
  rewrite Ht, Hrun. unfold sql_delete_all. cbn [with_fs table].
  by rewrite Ht.
Qed.

Lemma delete_prompt_history_partial_run
    (w : World) (rows : list Row) (pre post : list string) (bad : string) :
  table w = Some rows →
  select_image_paths rows = pre ++ bad :: post →
  (∀ p, p ∈ pre → removable env (fs w) p) →
  stuck env (fs w) bad →
  ∃ e f',
    delete_prompt_history env w
    = Raised e (mkWorld (Some rows) f' (uuid_calls w) (clock_calls w))
    ∧ (fs w !! realpath env bad = Some LockedFile → e = PermissionError)
    ∧ (fs w !! realpath env bad = Some Directory → e = IsADirectoryError)
    ∧ (∀ p, p ∈ pre → f' !! realpath env p = None)
    ∧ (∀ k, k ∉ realpath env <$> pre → f' !! k = fs w !! k).
Proof.
  intros Ht Hsel Hpre Hbad.
  destruct (sweep_partial pre post bad w Hpre Hbad)
    as (e & f' & Hrun & Hrest).
  exists e, f'. split; [| exact Hrest].
  unfold delete_prompt_history, bind at 1, sql_select_image_paths.
  rewrite Ht, Hsel. unfold bind at 1. rewrite Hrun.
  unfold with_fs. by rewrite Ht.
Qed.

End Cleanup.







(** C9 (as the code has it). Removing an artifact (a path that is not the
    database file) whose name is free removes nothing and raises nothing;
    when the path names a file that can be unlinked, the file is deleted.
    In both cases the step returns [None]: nothing is reported. *)
Theorem remove_if_exists_outcome (env : Env) (w : World) (path : string) :
  is_database env path = false →
  (fs w !! realpath env path = None →
   remove_if_exists path env w = Returned tt w)
  ∧ (fs w !! realpath env path = Some RegularFile →
     remove_if_exists path env w
     = Returned tt (with_fs (delete (realpath env path) (fs w)) w)
     ∧ fs (with_fs (delete (realpath env path) (fs w)) w)
         !! realpath env path = None).
Proof.
  intros Hdb. split.
  - by apply remove_if_exists_absent.
  - intros H. split; [by apply remove_if_exists_regular |].
    apply lookup_delete_eq.
Qed.

Lemma remove_if_exists_outcome_witness :
  is_database sample_env "images/a.png" = false
  ∧ (fs world_without_file !! realpath sample_env "images/a.png" = None
     ∧ remove_if_exists "images/a.png" sample_env world_without_file
       = Returned tt world_without_file)
  ∧ (fs world_with_file !! realpath sample_env "images/a.png"
     = Some RegularFile
     ∧ remove_if_exists "images/a.png" sample_env world_with_file
       = Returned tt
           (with_fs (delete (realpath sample_env "images/a.png")
                            (fs world_with_file)) world_with_file)).
Proof.
  split; [reflexivity |]. split; (split; [reflexivity |]).
  - exact (proj1 (remove_if_exists_outcome sample_env world_without_file
                    "images/a.png" eq_refl) eq_refl).
  - exact (proj1 (proj2 (remove_if_exists_outcome sample_env world_with_file
                           "images/a.png" eq_refl) eq_refl)).
Defined.

(** C9 (as stated) fails: with the file on disk and without it, the step
    and the whole of [delete_prompt_history] return the same value, so no
    reading of what is returned says whether a file was removed. *)
Lemma removal_is_not_reported :
  value (remove_if_exists "images/a.png" sample_env world_without_file)
  = Some tt
  ∧ value (remove_if_exists "images/a.png" sample_env world_with_file)
    = Some tt
  ∧ value (delete_prompt_history sample_env world_without_file)
    = value (delete_prompt_history sample_env world_with_file)
  ∧ ¬ ∃ removed : option unit → bool,
        removed (value (delete_prompt_history sample_env world_without_file))
        = false
        ∧ removed (value (delete_prompt_history sample_env world_with_file))
          = true.
Proof.
  split; [reflexivity |]. split; [reflexivity |]. split; [reflexivity |].
  intros (removed & H1 & H2).
  change (value (delete_prompt_history sample_env world_with_file))
    with (value (delete_prompt_history sample_env world_without_file)) in H2.
  congruence.
Qed.

(** ** Initialisation *)

Lemma init_db_on_empty (env : Env) (w : World) :
  table w = None ∨ table w = Some [] →
  init_db env w
  = Returned tt
      (mkWorld
         (Some (fresh_rows env (uuid_calls w) (clock_calls w)
                  (map (fun '(p, style) => (p, style, EmptyString)) mock_data)))
         (fs w) (3 + uuid_calls w) (3 + clock_calls w)).
Proof.
  intros H. destruct w as [t f u c]. simpl in H.
  destruct H as [-> | ->]; reflexivity.
Qed.

Lemma init_db_on_rows (env : Env) (w : World) (rows : list Row) :
  table w = Some rows → rows ≠ [] → init_db env w = Returned tt w.
Proof.
  intros H Hne. destruct w as [t f u c]. simpl in H. subst t.
  destruct rows; [done | reflexivity].
Qed.

(** C6. On an empty store (no table yet, or a table without rows) [init_db]
    stores the three example records, without image, and a second call
    changes nothing: two calls end in the very world one call ends in, with
    three rows.  On a table that has rows [init_db] stores nothing. *)
Theorem init_db_seeds_once (env : Env) (w : World) :
  (table w = None ∨ table w = Some [] →
   ∃ w1 seeds,
     init_db env w = Returned tt w1
     ∧ (init_db ;; init_db) env w = Returned tt w1
     ∧ table w1 = Some seeds
     ∧ length seeds = 3
     ∧ map (fun r => (prompt r, expected_style r)) seeds = mock_data
     ∧ map image_path seeds = [EmptyString; EmptyString; EmptyString])
  ∧ (∀ rows, table w = Some rows → rows ≠ [] → init_db env w = Returned tt w).
Proof.
  split; [| apply init_db_on_rows].
  intros H. eexists _, _. split; [exact (init_db_on_empty env w H) |].
  split; [| by repeat split].
  unfold bind at 1. rewrite (init_db_on_empty env w H).
  eapply init_db_on_rows; [reflexivity | discriminate].
Qed.

Lemma init_db_seeds_once_witness :
  (table empty_world = None ∨ table empty_world = Some [])
  ∧ ∃ w1 seeds,
      init_db sample_env empty_world = Returned tt w1
      ∧ (init_db ;; init_db) sample_env empty_world = Returned tt w1
      ∧ table w1 = Some seeds
      ∧ length seeds = 3
      ∧ map (fun r => (prompt r, expected_style r)) seeds = mock_data
      ∧ map image_path seeds = [EmptyString; EmptyString; EmptyString].
Proof.
  split; [left; reflexivity |].
  exact (proj1 (init_db_seeds_once sample_env empty_world)
           (or_introl eq_refl)).
Defined.

(** ** Empty prompts *)

(** C10. [save_prompt] asks nothing of the prompt: on an initialised store,
    for every style and image path, the call with the empty prompt returns
    and appends a row whose prompt is the empty string.  The guard is in the
    form handler of [main], which on an empty prompt does nothing at all,
    whether the button was pressed or not. *)
Theorem save_prompt_accepts_empty_prompt
    (env : Env) (w : World) (rows : list Row) (style path : string) :
  table w = Some rows →
  (∃ w' r,
     save_prompt EmptyString style path env w = Returned tt w'
     ∧ table w' = Some (rows ++ [r])
     ∧ prompt r = EmptyString
     ∧ expected_style r = style
     ∧ image_path r = path)
  ∧ (∀ generate_button,
       main_generate generate_button EmptyString style env w = Returned tt w).
Proof.
  intros H. split.
  - eexists _, _. split; [exact (save_prompt_run env w rows _ _ _ H) |].
    by repeat split.
  - intros []; reflexivity.
Qed.

Lemma save_prompt_accepts_empty_prompt_witness :
  table fresh_world = Some []
  ∧ (∃ w' r,
       save_prompt EmptyString "cartoon" "images/a.png" sample_env fresh_world
       = Returned tt w'
       ∧ table w' = Some ([] ++ [r])
       ∧ prompt r = EmptyString
       ∧ expected_style r = "cartoon"
       ∧ image_path r = "images/a.png")
  ∧ (∀ generate_button,
       main_generate generate_button EmptyString "cartoon" sample_env fresh_world
       = Returned tt fresh_world).
Proof.
  split; [reflexivity |].
  exact (save_prompt_accepts_empty_prompt sample_env fresh_world []
           "cartoon" "images/a.png" eq_refl).
Defined.

(** ** Further properties of the store *)

(** X1. [init_db] returns from every state of the database, touches no file,
    and leaves a table with at least one row: the rows that were there stay
    in place, and whatever it adds has no image. *)
Theorem init_db_always_returns (env : Env) (w : World) :
  ∃ w' rows,
    init_db env w = Returned tt w'
    ∧ table w' = Some rows
    ∧ rows ≠ []
    ∧ fs w' = fs w
    ∧ ∀ old, table w = Some old →
        ∃ added,
          rows = old ++ added
          ∧ Forall (fun r => image_path r = EmptyString) added.
Proof.
  destruct (table w) as [[|r old]|] eqn:Ht.
  - eexists _, _. split; [apply init_db_on_empty; by right |].
    split; [reflexivity |]. split; [discriminate |]. split; [reflexivity |].
    intros old [= <-]. eexists. split; [reflexivity |].
    by repeat constructor.
  - eexists _, _. split; [by apply (init_db_on_rows env w (r :: old)) |].
    split; [exact Ht |]. split; [discriminate |]. split; [reflexivity |].
    intros old' [= <-]. exists []. by rewrite app_nil_r.
  - eexists _, _. split; [apply init_db_on_empty; by left |].
    split; [reflexivity |]. split; [discriminate |]. split; [reflexivity |].
    intros old [=].
Qed.

(** X2. On a database file without the table, [save_prompt],
    [get_prompt_history] and [delete_prompt_history] raise sqlite's
    [OperationalError]; none of them creates the table or touches a file. *)
Theorem store_without_table_raises
    (env : Env) (w : World) (p style path : string) :
  table w = None →
  (∃ w',
     save_prompt p style path env w = Raised OperationalError w'
     ∧ table w' = None ∧ fs w' = fs w)
  ∧ get_prompt_history env w = Raised OperationalError w
  ∧ delete_prompt_history env w = Raised OperationalError w.
Proof.
  intros Ht. split; [| split].
  - eexists. unfold save_prompt, bind, uuid_uuid4, datetime_now, sql_insert.
    cbn [table]. rewrite Ht. by repeat split.
  - unfold get_prompt_history, sql_select_history. by rewrite Ht.
  - unfold delete_prompt_history, bind, sql_select_image_paths. by rewrite Ht.
Qed.

Lemma store_without_table_raises_witness :
  table empty_world = None
  ∧ get_prompt_history sample_env empty_world
    = Raised OperationalError empty_world
  ∧ delete_prompt_history sample_env empty_world
    = Raised OperationalError empty_world.
Proof.
  split; [reflexivity |].
  exact (proj2 (store_without_table_raises sample_env empty_world
                  "a city" "cartoon" EmptyString eq_refl)).
Defined.

(** ** The form handler *)

Lemma truthy_false (s : string) : truthy s = false ↔ s = EmptyString.
Proof. destruct s; simpl; split; intros; congruence. Qed.






Section Generate.

Variable env : Env.

Lemma main_generate_skip (w : World) (b : bool) (p style : string) :
  b = false ∨ p = EmptyString →
  main_generate b p style env w = Returned tt w.
Proof.
  intros [-> | ->]; [reflexivity |]. unfold main_generate.
  by rewrite andb_false_r.
Qed.





End Generate.





(** ** A run of the script *)

Section Run.

Variable env : Env.


(** The name [images] taken by a broken link: [os.path.exists] says no
    and [os.makedirs] raises. *)
Lemma main_make_images_dir_broken (w : World) :
  is_database env "images" = false →
  fs w !! realpath env "images" = Some BrokenLink →
  main_make_images_dir env w = Raised FileExistsError w.
Proof.
  intros Hdb H. unfold main_make_images_dir, bind, os_path_exists, os_makedirs.
  rewrite Hdb, H. cbv beta iota. by rewrite Hdb, H.
Qed.

Lemma main_make_images_dir_effect (w : World) :
  fs w !! realpath env "images" ≠ Some BrokenLink →
  ∃ f',
    main_make_images_dir env w = Returned tt (with_fs f' w)
    ∧ ∀ q, f' !! q = fs w !! q ∨ (fs w !! q = None ∧ f' !! q = Some Directory).
Proof.
  intros Hlink.
  unfold main_make_images_dir, bind, os_path_exists, os_makedirs.
  destruct (is_database env "images") eqn:Hdb.
  { exists (fs w). unfold ret. rewrite with_fs_same. split; [done | by left]. }
  destruct (fs w !! realpath env "images") as [[| | |]|] eqn:Hdir;
    try done; cbv beta iota; rewrite ?Hdb, ?Hdir.
  1-3: exists (fs w); unfold ret; rewrite with_fs_same;
    split; [done | by left].
  eexists. split; [reflexivity |]. intros q.
  destruct (decide (realpath env "images" = q)) as [<- | Hne].
  - right. by rewrite lookup_insert_eq.
  - left. by rewrite lookup_insert_ne.
Qed.










End Run.








(** ** More on clearing *)

(** X8. Clearing is not all-or-nothing.  When the gathered paths are [pre],
    then [bad], then [post], the paths of [pre] are not the database and
    name nothing or files that can be unlinked, and [bad] is a protected
    file or a directory, [delete_prompt_history] raises [PermissionError]
    (a protected file) or [IsADirectoryError] (a directory) with the files
    of [pre] already gone, every other directory entry as it was, and all
    rows still stored: the records of [pre] now point at files that no
    longer exist. *)
Theorem delete_prompt_history_partial
    (env : Env) (w : World) (rows : list Row)
    (pre post : list string) (bad : string) :
  table w = Some rows →
  select_image_paths rows = pre ++ bad :: post →
  (∀ p, p ∈ pre → removable env (fs w) p) →
  stuck env (fs w) bad →
  ∃ e w2,
    delete_prompt_history env w = Raised e w2
    ∧ (fs w !! realpath env bad = Some LockedFile → e = PermissionError)
    ∧ (fs w !! realpath env bad = Some Directory → e = IsADirectoryError)
    ∧ table w2 = Some rows
    ∧ (∀ p, p ∈ pre → fs w2 !! realpath env p = None)
    ∧ (∀ k, k ∉ realpath env <$> pre → fs w2 !! k = fs w !! k).
Proof.
  intros Ht Hsel Hpre Hbad.
  destruct (delete_prompt_history_partial_run env w rows pre post bad
              Ht Hsel Hpre Hbad) as (e & f' & Hrun & Hl & Hd & Hin & Hout).
  exists e. eexists. split; [exact Hrun |]. by repeat split.
Qed.

Lemma delete_prompt_history_partial_witness :
  table stuck_world = Some stuck_rows
  ∧ select_image_paths stuck_rows
    = ["images/a.png"] ++ "images" :: ["images/b.png"]
  ∧ (∀ p, p ∈ ["images/a.png"] → removable sample_env (fs stuck_world) p)
  ∧ stuck sample_env (fs stuck_world) "images"
  ∧ ∃ e w2,
      delete_prompt_history sample_env stuck_world = Raised e w2
      ∧ table w2 = Some stuck_rows
      ∧ (∀ p, p ∈ ["images/a.png"] → fs w2 !! realpath sample_env p = None).
Proof.
  assert (∀ p, p ∈ ["images/a.png"] →
               removable sample_env (fs stuck_world) p) as Hpre.
  { intros p Hp. apply list_elem_of_singleton in Hp as ->.
    split; [reflexivity | right; reflexivity]. }
  assert (stuck sample_env (fs stuck_world) "images") as Hbad
    by (split; [reflexivity | right; reflexivity]).
  split; [reflexivity |]. split; [reflexivity |]. split; [exact Hpre |].
  split; [exact Hbad |].
  destruct (delete_prompt_history_partial sample_env stuck_world stuck_rows
              ["images/a.png"] ["images/b.png"] "images"
              eq_refl eq_refl Hpre Hbad)
    as (e & w2 & Hrun & _ & _ & Ht & Hgone & _).
  by exists e, w2.
Defined.

(** X9. Clearing a store that holds no image (the example records only,
    say) looks at no file: the table is emptied and nothing else changes. *)
Theorem delete_prompt_history_without_images
    (env : Env) (w : World) (rows : list Row) :
  table w = Some rows →
  Forall (fun r => image_path r = EmptyString) rows →
  delete_prompt_history env w = Returned tt (with_table (Some []) w).
Proof.
  intros Ht Hall.
  assert (select_image_paths rows = []) as Hnone.
  { clear Ht. induction rows as [|r rows IH]; [done |].
    apply Forall_cons in Hall as [Hr Hall].
    rewrite select_image_paths_cons.
    destruct (decide (image_path r ≠ EmptyString)); [done | by apply IH]. }
  unfold delete_prompt_history, bind, sql_select_image_paths.
  rewrite Ht, Hnone. cbn [for_each]. unfold ret, sql_delete_all.
  by rewrite Ht.
Qed.

Lemma delete_prompt_history_without_images_witness :
  table fresh_world = Some []
  ∧ Forall (fun r => image_path r = EmptyString) ([] : list Row)
  ∧ delete_prompt_history sample_env fresh_world
    = Returned tt (with_table (Some []) fresh_world).
Proof.
  split; [reflexivity |]. split; [apply Forall_nil_2 |].
  exact (delete_prompt_history_without_images sample_env fresh_world []
           eq_refl (Forall_nil_2 _)).
Defined.

(** X10. Clearing and the next start of the script: when every gathered
    path is not the database and names nothing or a file that can be
    unlinked, [delete_prompt_history] followed by [init_db] leaves exactly
    the three example records, without image, under newly drawn ids and
    with the clock readings of that start.  Cleared history comes back as
    the examples. *)
Theorem delete_then_init_db_reseeds
    (env : Env) (w : World) (rows : list Row) :
  table w = Some rows →
  (∀ p, p ∈ select_image_paths rows → removable env (fs w) p) →
  ∃ w2,
    (delete_prompt_history ;; init_db) env w = Returned tt w2
    ∧ table w2
      = Some (fresh_rows env (uuid_calls w) (clock_calls w)
                (map (fun '(p, style) => (p, style, EmptyString)) mock_data))
    ∧ get_prompt_history env w2
      = Returned
          (map (fun '(i, (p, style)) => (p, style, EmptyString, now env i))
               (zip (seq (clock_calls w) 3) mock_data))
          w2.
Proof.
  intros Ht Hall.
  destruct (delete_prompt_history_removable env w rows Ht Hall)
    as (f' & Hrun & _).
  eexists. split; [| split].
  - unfold bind. rewrite Hrun. apply init_db_on_empty. by right.
  - reflexivity.
  - reflexivity.
Qed.

Lemma delete_then_init_db_reseeds_witness :
  table world_with_file = Some one_file_rows
  ∧ (∀ p, p ∈ select_image_paths one_file_rows →
          removable sample_env (fs world_with_file) p)
  ∧ ∃ w2,
      (delete_prompt_history ;; init_db) sample_env world_with_file
      = Returned tt w2
      ∧ table w2
        = Some (fresh_rows sample_env 1 1
                  (map (fun '(p, style) => (p, style, EmptyString)) mock_data)).
Proof.
  assert (∀ p, p ∈ select_image_paths one_file_rows →
               removable sample_env (fs world_with_file) p) as Hall.
  { intros p Hp.
    change (select_image_paths one_file_rows) with ["images/a.png"] in Hp.
    apply list_elem_of_singleton in Hp as ->.
    split; [reflexivity | right; reflexivity]. }
  split; [reflexivity |]. split; [exact Hall |].
  destruct (delete_then_init_db_reseeds sample_env world_with_file
              one_file_rows eq_refl Hall) as (w2 & H1 & H2 & _).
  by exists w2.
Defined.



(** ** More on the alignment label *)




(** X12. An empty style tag occurs in every prompt: a record with an image and
    an empty style is always labelled Aligned, whatever the prompt. *)
Theorem empty_style_is_aligned (p path time : string) :
  path ≠ EmptyString →
  report_block (p, EmptyString, path, time)
  = block_text p EmptyString path "Aligned" time.
Proof.
  intros Hpath. rewrite (report_block_image _ _ _ _ Hpath).
  assert (py_in (lower EmptyString) (lower p) = true) as ->; [| done].
  apply py_in_spec. exists EmptyString, (lower p). reflexivity.
Qed.

Lemma empty_style_is_aligned_witness :
  "x.png" ≠ EmptyString
  ∧ report_block ("a city", EmptyString, "x.png", "t")
    = block_text "a city" EmptyString "x.png" "Aligned" "t".
Proof.
  assert ("x.png" ≠ EmptyString) as Hpath by discriminate.
  split; [exact Hpath |].
  exact (empty_style_is_aligned "a city" "x.png" "t" Hpath).
Defined.

(** ** A record whose image is missing *)

Lemma show_images_broken (env : Env) (w : World) (rows : list Row) :
  (∃ r, r ∈ rows ∧ image_path r ≠ EmptyString
        ∧ is_database env (image_path r) = false
        ∧ (fs w !! realpath env (image_path r) = None
           ∨ fs w !! realpath env (image_path r) = Some Directory)) →
  ∃ e, show_images (map project rows) env w = Raised e w.
Proof.
  unfold show_images.
  induction rows as [|x rows IH]; intros (r & Hr & Hne & Hdb & Hbad).
  - by apply elem_of_nil in Hr.
  - cbn [map for_each project]. unfold bind at 1.
    destruct (truthy (image_path x)) eqn:Hx.
    + unfold st_image.
      destruct (is_database env (image_path x)) eqn:Hxdb.
      * by eexists.
      * destruct (fs w !! realpath env (image_path x)) as [[| | |]|] eqn:Hfile;
          try by eexists.
        all: apply elem_of_cons in Hr as [-> | Hr];
          [destruct Hbad; congruence | apply IH; by exists r].
    + apply truthy_false in Hx. unfold ret.
      apply elem_of_cons in Hr as [-> | Hr]; [done |].
      apply IH. by exists r.
Qed.

(** X13. When a stored record names an image beside the database that is
    not on disk (removed by hand, or by a clearing that failed half-way), a
    run that does not generate raises while it shows the history, if not
    before, and so before it reaches the report and the clear button: the
    rows stay stored, the clear button included. *)
Theorem main_raises_on_missing_image
    (env : Env) (w : World) (rows : list Row) (r : Row) (i : Inputs) :
  table w = Some rows →
  r ∈ rows →
  image_path r ≠ EmptyString →
  is_database env (image_path r) = false →
  fs w !! realpath env (image_path r) = None →
  press_generate i = false →
  ∃ e w2, main i env w = Raised e w2 ∧ table w2 = Some rows.
Proof.
  intros Ht Hr Hne Hdb Hmissing Hgen.
  assert (rows ≠ []) as Hrows by (intros ->; by apply elem_of_nil in Hr).
  unfold main, bind at 1, main_open, bind at 1.
  rewrite (init_db_on_rows env w rows Ht Hrows). unfold bind at 1.
  destruct (decide (fs w !! realpath env "images" = Some BrokenLink))
    as [Hlink | Hlink].
  - destruct (is_database env "images") eqn:Hidb.
    + assert (main_make_images_dir env w = Returned tt w) as ->.
      { unfold main_make_images_dir, bind, os_path_exists. by rewrite Hidb. }
      destruct (show_images_broken env w rows) as (e & Hshow).
      { exists r. split; [done |]. split; [done |]. split; [done | by left]. }
      exists e, w. split; [| exact Ht]. unfold bind at 1.
      rewrite main_generate_skip by (left; exact Hgen).
      unfold get_prompt_history, sql_select_history. rewrite Ht.
      assert (match map project rows with
              | [] => ret tt
              | _ :: _ => show_images (map project rows)
              end = show_images (map project rows)) as ->
        by by destruct rows.
      unfold bind at 1. by rewrite Hshow.
    + rewrite (main_make_images_dir_broken env w Hidb Hlink).
      by exists FileExistsError, w.
  - destruct (main_make_images_dir_effect env w Hlink) as (f' & Hdir & Hf).
    destruct (show_images_broken env (with_fs f' w) rows) as (e & Hshow).
    { exists r. split; [done |]. split; [done |]. split; [done |].
      cbn [with_fs fs].
      destruct (Hf (realpath env (image_path r))) as [-> | [_ ->]];
        [by left | by right]. }
    exists e, (with_fs f' w). split; [| exact Ht].
    rewrite Hdir. unfold bind at 1.
    rewrite main_generate_skip by (left; exact Hgen).
    unfold get_prompt_history, sql_select_history. cbn [with_fs table].
    rewrite Ht.
    assert (match map project rows with
            | [] => ret tt
            | _ :: _ => show_images (map project rows)
            end = show_images (map project rows)) as ->
      by by destruct rows.
    unfold bind at 1. by rewrite Hshow.
Qed.

Lemma main_raises_on_missing_image_witness :
  table world_without_file = Some one_file_rows
  ∧ press_generate clear_inputs = false
  ∧ ∃ e w2,
      main clear_inputs sample_env world_without_file = Raised e w2
      ∧ table w2 = Some one_file_rows.
Proof.
  split; [reflexivity |]. split; [reflexivity |].
  refine (main_raises_on_missing_image sample_env world_without_file
            one_file_rows
            (mkRow "id-1" "a city" "cartoon" "images/a.png"
                   "2024-05-01 12:00:00")
            clear_inputs eq_refl _ _ eq_refl eq_refl eq_refl).
  - by left.
  - discriminate.
Defined.
